(** * ToolContext (google/adk/tools/tool_context.py)

    A shallow embedding of the [ToolContext] class and of the interfaces of
    the collaborators it delegates to, followed by the properties of its
    five methods.

    - Python objects that are shared and mutated in place (the
      [EventActions] record) live in a store indexed by object identity;
      a context holds the identity, not the record.
    - A method is a function from the world (the attributes of [self] and
      the store) to an outcome and the world after the call.  An outcome is
      a returned value or a raised exception; what was written before an
      exception is raised stays written.
    - The two [async] methods are modelled by the value their [await]
      produces: nothing in this class runs between the delegation and the
      return.
    - Collaborators whose code is not part of this file (the auth handler,
      the artifact and memory services) are taken at their interface: a
      call yields a value or fails with an error of the collaborator. *)

From stdpp Require Import base option strings gmap fin_maps.

Open Scope string_scope.

(** ** Exceptions, outcomes and the method monad *)

Section Effects.

Context {E W : Type}.

(** [ValueError] is what this class raises itself; [Propagated] carries an
    error raised inside a collaborator, passed through as it is. *)
Inductive exn : Type :=
| ValueError (msg : string)
| Propagated (e : E).

Inductive outcome (A : Type) : Type :=
| Returns (a : A)
| Raises (x : exn).

Definition M (A : Type) : Type := W -> outcome A * W.

Definition ret {A} (a : A) : M A := fun w => (Returns A a, w).

Definition raise {A} (x : exn) : M A := fun w => (Raises A x, w).

Definition bind {A B} (m : M A) (k : A -> M B) : M B :=
  fun w =>
    match m w with
    | (Returns _ a, w') => k a w'
    | (Raises _ x, w') => (Raises B x, w')
    end.

(** The result of a collaborator, seen from the caller: its value, or its
    error propagated unchanged. *)
Definition outcome_of {A} (r : E + A) : outcome A :=
  match r with
  | inr a => Returns A a
  | inl e => Raises A (Propagated e)
  end.

Definition call {A} (r : E + A) : M A := fun w => (outcome_of r, w).

Definition gets {A} (f : W -> A) : M A := fun w => (Returns A (f w), w).

Definition modify (f : W -> W) : M unit := fun w => (Returns unit tt, f w).

End Effects.

Arguments exn : clear implicits.
Arguments outcome : clear implicits.
Arguments M : clear implicits.
Arguments Returns {E A} a.
Arguments Raises {E A} x.
Arguments ValueError {E} msg.
Arguments Propagated {E} e.

Declare Scope py_scope.
Delimit Scope py_scope with py.
Notation "x <- m ;; k" := (bind m (fun x => k))
  (at level 100, m at next level, right associativity) : py_scope.
Notation "m ;; k" := (bind m (fun _ => k))
  (at level 100, right associativity) : py_scope.

(** Object identity of the records kept in the store. *)
Definition addr : Type := positive.

(** ** Collaborator interfaces *)

(** [list_artifact_keys(app_name, user_id, session_id)]. *)
Module ArtifactService.
Record t (E : Type) : Type := Build {
  list_artifact_keys : string -> string -> string -> E + list string
}.
Arguments Build {E}.
Arguments list_artifact_keys {E}.
End ArtifactService.

(** [search_memory(app_name, user_id, query)]. *)
Module MemoryService.
Record t (E R : Type) : Type := Build {
  search_memory : string -> string -> string -> E + R
}.
Arguments Build {E R}.
Arguments search_memory {E R}.
End MemoryService.

(** An [AuthHandler] instance, already constructed from its [AuthConfig]. *)
Module AuthHandler.
Record t (E State AuthRequest AuthCredential : Type) : Type := Build {
  generate_auth_request : E + AuthRequest;
  get_auth_response : State -> E + AuthCredential
}.
Arguments Build {E State AuthRequest AuthCredential}.
Arguments generate_auth_request {E State AuthRequest AuthCredential}.
Arguments get_auth_response {E State AuthRequest AuthCredential}.
End AuthHandler.

Module Session.
Record t : Type := Build { id : string }.
End Session.

(** The attributes of the invocation context this class reads.
    [requested_auth_configs] is an optional attribute holding a nullable
    mapping: [None] when the attribute is missing ([hasattr] is false),
    [Some None] when it is [None], [Some (Some m)] when it is the dict [m]. *)
Module InvocationContext.
Record t (E R AuthCredential : Type) : Type := Build {
  app_name : string;
  user_id : string;
  session : Session.t;
  artifact_service : option (ArtifactService.t E);
  memory_service : option (MemoryService.t E R);
  requested_auth_configs : option (option (gmap string AuthCredential))
}.
Arguments Build {E R AuthCredential}.
Arguments app_name {E R AuthCredential}.
Arguments user_id {E R AuthCredential}.
Arguments session {E R AuthCredential}.
Arguments artifact_service {E R AuthCredential}.
Arguments memory_service {E R AuthCredential}.
Arguments requested_auth_configs {E R AuthCredential}.
End InvocationContext.

(** The event-actions record: the mapping this class writes, and the rest
    of the record, which it never touches. *)
Module EventActions.
Record t (AuthRequest Rest : Type) : Type := Build {
  requested_auth_configs : gmap string AuthRequest;
  rest : Rest
}.
Arguments Build {AuthRequest Rest}.
Arguments requested_auth_configs {AuthRequest Rest}.
Arguments rest {AuthRequest Rest}.

(** [ea.requested_auth_configs[k] = v]. *)
Definition setitem {AuthRequest Rest} (k : string) (v : AuthRequest)
    (ea : t AuthRequest Rest) : t AuthRequest Rest :=
  Build (<[k := v]> (requested_auth_configs ea)) (rest ea).
End EventActions.

(** ** The base class *)

Module CallbackContext.
Record t (E R AuthCredential State : Type) : Type := Build {
  _invocation_context : InvocationContext.t E R AuthCredential;
  _event_actions : addr;
  state : State
}.
Arguments Build {E R AuthCredential State}.
Arguments _invocation_context {E R AuthCredential State}.
Arguments _event_actions {E R AuthCredential State}.
Arguments state {E R AuthCredential State}.

(** Modelled from the spec: the constructor [CallbackContext.__init__] of
    the base class, whose code is not part of this file.  It stores the
    invocation context and initialises the context with the given event
    actions, "defaulted if absent": a given record is kept by identity, and
    without one a new default record is allocated in the store.  The spec
    does not say what the default record holds nor how the exposed state is
    obtained; both are parameters ([default_actions], [state_of]). *)
Definition init {E R AuthCredential State AuthRequest Rest : Type}
    (default_actions : EventActions.t AuthRequest Rest)
    (state_of : InvocationContext.t E R AuthCredential -> State)
    (invocation_context : InvocationContext.t E R AuthCredential)
    (event_actions : option addr)
    (h : gmap addr (EventActions.t AuthRequest Rest))
  : t E R AuthCredential State * gmap addr (EventActions.t AuthRequest Rest) :=
  match event_actions with
  | Some a => (Build invocation_context a (state_of invocation_context), h)
  | None =>
      let a := fresh (dom h) in
      (Build invocation_context a (state_of invocation_context),
       <[a := default_actions]> h)
  end.
End CallbackContext.

(** ** The class ToolContext *)

Module ToolContext.
Section ToolContext.

Context {E R AuthConfig AuthRequest AuthCredential State Rest : Type}.

(** [AuthHandler(auth_config)]: the handler class is imported, not defined
    here. *)
Variable AuthHandler_init :
  AuthConfig -> AuthHandler.t E State AuthRequest AuthCredential.

(** The attributes of a [ToolContext]: those of the base class, and
    [function_call_id : Optional[str]]. *)
Record t : Type := Build {
  base : CallbackContext.t E R AuthCredential State;
  function_call_id : option string
}.

(** What a method can read and write: the attributes of [self] and the
    store of event-actions records. *)
Record World : Type := mkWorld {
  self : t;
  heap : gmap addr (EventActions.t AuthRequest Rest)
}.

Local Abbreviation Method := (M E World).
Local Open Scope py_scope.

(** [__init__(invocation_context, *, function_call_id=None,
    event_actions=None)]. *)
Definition init
    (default_actions : EventActions.t AuthRequest Rest)
    (state_of : InvocationContext.t E R AuthCredential -> State)
    (invocation_context : InvocationContext.t E R AuthCredential)
    (function_call_id : option string) (event_actions : option addr)
    (h : gmap addr (EventActions.t AuthRequest Rest)) : World :=
  let '(b, h') :=
    CallbackContext.init default_actions state_of
      invocation_context event_actions h in
  mkWorld (Build b function_call_id) h'.

(** Attribute reads through [self]. *)
Definition _invocation_context (w : World)
  : InvocationContext.t E R AuthCredential :=
  CallbackContext._invocation_context (base (self w)).

Definition _event_actions (w : World) : addr :=
  CallbackContext._event_actions (base (self w)).

Definition state (w : World) : State := CallbackContext.state (base (self w)).

(** The property [actions]: [return self._event_actions]. *)
Definition actions : Method addr := gets _event_actions.

(** [self._event_actions.requested_auth_configs[k] = v], on the record the
    context refers to.  An identity outside the store denotes no object;
    Python has no such reference. *)
Definition setitem_requested_auth_configs (k : string) (v : AuthRequest)
  : Method unit :=
  modify (fun w =>
    mkWorld (self w)
      (alter (EventActions.setitem k v) (_event_actions w) (heap w))).

(** [request_credential(auth_config)].  [not self.function_call_id] holds
    for [None] and for the empty string.  The right-hand side of the
    assignment is evaluated before the store is written. *)
Definition request_credential (auth_config : AuthConfig) : Method unit :=
  fcid <- gets (fun w => function_call_id (self w)) ;;
  match fcid with
  | None => raise (ValueError "function_call_id is not set.")
  | Some k =>
      if decide (k = "") then raise (ValueError "function_call_id is not set.")
      else
        v <- call (AuthHandler.generate_auth_request
                     (AuthHandler_init auth_config)) ;;
        setitem_requested_auth_configs k v
  end.

(** The guard of [get_auth_response]:
    [hasattr(ic, "requested_auth_configs") and ic.requested_auth_configs
     and "bearer" in ic.requested_auth_configs], and on success the entry
    [ic.requested_auth_configs["bearer"]]. *)
Definition bearer_entry (ic : InvocationContext.t E R AuthCredential)
  : option AuthCredential :=
  match InvocationContext.requested_auth_configs ic with
  | None => None
  | Some None => None
  | Some (Some m) => if decide (m = ∅) then None else m !! "bearer"
  end.

(** [get_auth_response(auth_config)]. *)
Definition get_auth_response (auth_config : AuthConfig)
  : Method AuthCredential :=
  ic <- gets _invocation_context ;;
  match bearer_entry ic with
  | Some tok => ret tok
  | None =>
      st <- gets state ;;
      call (AuthHandler.get_auth_response (AuthHandler_init auth_config) st)
  end.

(** [list_artifacts()]. *)
Definition list_artifacts : Method (list string) :=
  ic <- gets _invocation_context ;;
  match InvocationContext.artifact_service ic with
  | None => raise (ValueError "Artifact service is not initialized.")
  | Some svc =>
      call (ArtifactService.list_artifact_keys svc
              (InvocationContext.app_name ic)
              (InvocationContext.user_id ic)
              (Session.id (InvocationContext.session ic)))
  end.

(** [search_memory(query)]. *)
Definition search_memory (query : string) : Method R :=
  ic <- gets _invocation_context ;;
  match InvocationContext.memory_service ic with
  | None => raise (ValueError "Memory service is not available.")
  | Some svc =>
      call (MemoryService.search_memory svc
              (InvocationContext.app_name ic)
              (InvocationContext.user_id ic)
              query)
  end.

(** *** Conditions named by the properties below *)

(** [function_call_id] is absent or empty. *)
Definition function_call_id_unset (w : World) : Prop :=
  function_call_id (self w) = None \/ function_call_id (self w) = Some "".

(** The invocation context has no requested-auth-configs mapping (no such
    attribute, or [None]), or an empty one, or one without ["bearer"]. *)
Definition no_bearer (ic : InvocationContext.t E R AuthCredential) : Prop :=
  InvocationContext.requested_auth_configs ic = None \/
  InvocationContext.requested_auth_configs ic = Some None \/
  exists m, InvocationContext.requested_auth_configs ic = Some (Some m) /\
            (m = ∅ \/ m !! "bearer" = None).

(** The event-actions record of the context, read from the store. *)
Definition event_actions_record (w : World)
  : option (EventActions.t AuthRequest Rest) :=
  heap w !! _event_actions w.

(** The store left by the method call [c.m(...)] made on the store [h]:
    the method runs with the context [c] as [self]. *)
Definition store_after {A} (m : Method A) (c : t)
    (h : gmap addr (EventActions.t AuthRequest Rest))
  : gmap addr (EventActions.t AuthRequest Rest) :=
  heap (m (mkWorld c h)).2.

End ToolContext.

Arguments t : clear implicits.
Arguments World : clear implicits.
End ToolContext.

(** ** A concrete deployment

    Every opaque type is a string or a mapping of strings; the handler
    fails on the empty configuration and looks the credential up in the
    state under the configuration's name. *)

Module Sample.

Abbreviation E := string.
Abbreviation R := (list string).
Abbreviation State := (gmap string string).
Abbreviation Rest := (list string).

Definition handler (auth_config : string)
  : AuthHandler.t E State string string :=
  AuthHandler.Build
    (if decide (auth_config = "") then inl "no auth scheme"
     else inr ("request for " ++ auth_config))
    (fun st =>
       match st !! auth_config with
       | Some c => inr c
       | None => inl "no credential"
       end).

Definition artifacts : ArtifactService.t E :=
  ArtifactService.Build
    (fun app user sid => inr [app ++ "/" ++ user ++ "/" ++ sid ++ "/a.txt"]).

Definition memory : MemoryService.t E R :=
  MemoryService.Build
    (fun app user query =>
       if decide (query = "") then inl "empty query"
       else inr [app ++ "/" ++ user ++ "?" ++ query]).

Definition ic_bearer : InvocationContext.t E R string :=
  InvocationContext.Build "app" "u1" (Session.Build "s1")
    (Some artifacts) (Some memory)
    (Some (Some {[ "bearer" := "tok" ]})).

Definition ic_other : InvocationContext.t E R string :=
  InvocationContext.Build "app" "u1" (Session.Build "s1")
    (Some artifacts) (Some memory)
    (Some (Some {[ "basic" := "pw" ]})).

Definition ic_bare : InvocationContext.t E R string :=
  InvocationContext.Build "app" "u1" (Session.Build "s1") None None None.

Definition state_of (ic : InvocationContext.t E R string) : State :=
  {[ "oauth" := "cred-" ++ InvocationContext.user_id ic ]}.

Definition default_actions : EventActions.t string Rest :=
  EventActions.Build ∅ [].

Definition ea0 : EventActions.t string Rest :=
  EventActions.Build {[ "fc0" := "request for basic" ]} ["transfer"].

Definition h0 : gmap addr (EventActions.t string Rest) := {[ 7%positive := ea0 ]}.

Definition new (ic : InvocationContext.t E R string)
    (function_call_id : option string) (event_actions : option addr)
  : ToolContext.World E R string string State Rest :=
  ToolContext.init default_actions state_of ic function_call_id event_actions h0.

(** A context sharing the caller's record 7, with a call id and a bearer
    entry; one without the bearer key; two without a usable call id. *)
Definition w_bearer := new ic_bearer (Some "fc1") (Some 7%positive).
Definition w_other := new ic_other (Some "fc1") (Some 7%positive).
Definition w_unset := new ic_bare None (Some 7%positive).
Definition w_empty := new ic_bare (Some "") None.

(** A second context on the caller's record 7, for another function call. *)
Definition w_sibling := new ic_other (Some "fc2") (Some 7%positive).

(** A handler class whose instances fail at every call. *)
Definition failing_handler (auth_config : string)
  : AuthHandler.t E State string string :=
  AuthHandler.Build (inl "unavailable") (fun _ => inl "unavailable").

(** The same user in another session, in a context of its own. *)
Definition ic_session2 : InvocationContext.t E R string :=
  InvocationContext.Build "app" "u1" (Session.Build "s2")
    None (Some memory) None.

Definition w_session2 := new ic_session2 None None.

End Sample.

(** ** Properties *)

Section Properties.

Context {E R AuthConfig AuthRequest AuthCredential State Rest : Type}.

Variable AuthHandler_init :
  AuthConfig -> AuthHandler.t E State AuthRequest AuthCredential.

Local Abbreviation World :=
  (ToolContext.World E R AuthRequest AuthCredential State Rest).
Local Abbreviation request_credential :=
  (ToolContext.request_credential (R := R) (Rest := Rest) AuthHandler_init).
Local Abbreviation get_auth_response :=
  (ToolContext.get_auth_response (R := R) (AuthRequest := AuthRequest)
     (Rest := Rest) AuthHandler_init).

Implicit Types (w : World) (auth_config : AuthConfig) (k : string).
Implicit Types (v : AuthRequest) (ea : EventActions.t AuthRequest Rest).

(** *** Equations of the methods *)

Lemma bind_ret_world {W A B} (m : M E W A) (k : A -> M E W B) (w w' : W) a :
  m w = (Returns a, w') -> bind m k w = k a w'.
Proof. unfold bind. intros ->. reflexivity. Qed.


Lemma request_credential_unset_eq w auth_config :
  ToolContext.function_call_id_unset w ->
  request_credential auth_config w
  = (Raises (ValueError "function_call_id is not set."), w).
Proof.
  unfold ToolContext.request_credential, bind, gets.
  intros [-> | ->]; reflexivity.
Qed.

Lemma request_credential_set_eq w auth_config k :
  ToolContext.function_call_id (ToolContext.self w) = Some k ->
  k <> "" ->
  request_credential auth_config w
  = match AuthHandler.generate_auth_request (AuthHandler_init auth_config) with
    | inr v =>
        (Returns tt,
         ToolContext.mkWorld (ToolContext.self w)
           (alter (EventActions.setitem k v) (ToolContext._event_actions w)
              (ToolContext.heap w)))
    | inl e => (Raises (Propagated e), w)
    end.
Proof.
  intros Hk Hne.
  unfold ToolContext.request_credential, bind, gets. rewrite Hk.
  destruct (decide (k = "")) as [Heq | _]; [contradiction |].
  unfold call, ToolContext.setitem_requested_auth_configs, modify.
  destruct (AuthHandler.generate_auth_request _); reflexivity.
Qed.

Lemma function_call_id_cases w :
  ToolContext.function_call_id_unset w \/
  exists k, ToolContext.function_call_id (ToolContext.self w) = Some k /\ k <> "".
Proof.
  unfold ToolContext.function_call_id_unset.
  destruct (ToolContext.function_call_id (ToolContext.self w)) as [k |].
  - destruct (decide (k = "")) as [-> | Hne]; [left; by right | right; eauto].
  - left. by left.
Qed.

Lemma bearer_entry_Some (ic : InvocationContext.t E R AuthCredential) m tok :
  InvocationContext.requested_auth_configs ic = Some (Some m) ->
  m !! "bearer" = Some tok ->
  ToolContext.bearer_entry ic = Some tok.
Proof.
  intros Hm Hb. unfold ToolContext.bearer_entry. rewrite Hm.
  destruct (decide (m = ∅)) as [-> | _]; [| exact Hb].
  by rewrite lookup_empty in Hb.
Qed.

Lemma bearer_entry_None (ic : InvocationContext.t E R AuthCredential) :
  ToolContext.bearer_entry ic = None <-> ToolContext.no_bearer ic.
Proof.
  unfold ToolContext.bearer_entry, ToolContext.no_bearer.
  destruct (InvocationContext.requested_auth_configs ic) as [[m |] |].
  - destruct (decide (m = ∅)) as [-> | Hne]; split.
    + intros _. right; right. exists ∅. by split; [| left].
    + done.
    + intros Hb. right; right. exists m. by split; [| right].
    + intros [? | [? | (m' & [= <-] & [-> | Hb])]]; done.
  - split; [intros _; right; by left | done].
  - split; [intros _; by left | done].
Qed.

Lemma get_auth_response_world w auth_config :
  (get_auth_response auth_config w).2 = w.
Proof.
  unfold ToolContext.get_auth_response, bind, gets, ret, call. simpl.
  destruct (ToolContext.bearer_entry _); reflexivity.
Qed.

(** *** The constructor and the store *)

(** A context built on a record of the store, or without a record, refers
    to a record of the store after construction. *)
Lemma init_event_actions_live default_actions state_of
    (ic : InvocationContext.t E R AuthCredential) function_call_id
    (event_actions : option addr)
    (h : gmap addr (EventActions.t AuthRequest Rest)) :
  (forall a, event_actions = Some a -> is_Some (h !! a)) ->
  is_Some (ToolContext.event_actions_record
             (State := State)
             (ToolContext.init default_actions state_of ic function_call_id
                event_actions h)).
Proof.
  intros Hlive. unfold ToolContext.event_actions_record, ToolContext.init.
  destruct event_actions as [a |]; simpl.
  - by apply Hlive.
  - unfold ToolContext._event_actions. simpl. rewrite lookup_insert_eq. eauto.
Qed.

(** A defaulted record is new: the records of the store are kept. *)
Lemma init_default_keeps_store default_actions state_of
    (ic : InvocationContext.t E R AuthCredential) function_call_id
    (h : gmap addr (EventActions.t AuthRequest Rest)) a ea :
  h !! a = Some ea ->
  ToolContext.heap
    (State := State)
    (ToolContext.init default_actions state_of ic function_call_id None h)
  !! a = Some ea.
Proof.
  intros Ha. unfold ToolContext.init. simpl.
  rewrite lookup_insert_ne; [done |].
  intros <-. apply (is_fresh (dom h)). apply elem_of_dom. eauto.
Qed.

(** A write made through one context is read through any other context
    that holds the same record. *)
Lemma request_credential_seen_by_sharers w auth_config k v
    (other : ToolContext.t E R AuthCredential State) :
  ToolContext.function_call_id (ToolContext.self w) = Some k ->
  k <> "" ->
  AuthHandler.generate_auth_request (AuthHandler_init auth_config) = inr v ->
  CallbackContext._event_actions (ToolContext.base other)
  = ToolContext._event_actions w ->
  ToolContext.event_actions_record
    (ToolContext.mkWorld other
       (ToolContext.heap (request_credential auth_config w).2))
  = EventActions.setitem k v <$> ToolContext.event_actions_record w.
Proof.
  intros Hk Hne Hv Hsame.
  rewrite (request_credential_set_eq w auth_config k Hk Hne), Hv.
  unfold ToolContext.event_actions_record at 1.
  unfold ToolContext._event_actions at 1. simpl. rewrite Hsame.
  apply lookup_alter_eq.
Qed.

(** *** get_auth_response *)

(** C1. When the invocation context exposes a requested-auth-configs
    mapping that holds an entry under "bearer" (such a mapping is not
    empty), [get_auth_response] returns that entry, whatever the
    [auth_config] and whatever handler class is in use: the handler is not
    consulted. *)
Theorem get_auth_response_bearer
    (handler : AuthConfig -> AuthHandler.t E State AuthRequest AuthCredential)
    w auth_config (m : gmap string AuthCredential) (tok : AuthCredential) :
  InvocationContext.requested_auth_configs (ToolContext._invocation_context w)
    = Some (Some m) ->
  m <> ∅ ->
  m !! "bearer" = Some tok ->
  ToolContext.get_auth_response handler auth_config w = (Returns tok, w).
Proof.
  intros Hm _ Hb.
  unfold ToolContext.get_auth_response, bind, gets.
  by rewrite (bearer_entry_Some _ m tok Hm Hb).
Qed.

(** C4. Without a bearer entry (no mapping, an empty one, or one that lacks
    the key "bearer"), [get_auth_response cfg] is exactly what the handler
    built from [cfg] answers on the context's state: its credential, or its
    failure passed through. *)
Theorem get_auth_response_delegates w auth_config :
  ToolContext.no_bearer (ToolContext._invocation_context w) ->
  get_auth_response auth_config w
  = (outcome_of (AuthHandler.get_auth_response (AuthHandler_init auth_config)
                   (ToolContext.state w)), w).
Proof.
  intros Hno. apply bearer_entry_None in Hno.
  unfold ToolContext.get_auth_response, bind, gets. by rewrite Hno.
Qed.

(** C7. [get_auth_response] writes nothing: the world after the call (the
    attributes of the context, among them its state, and the store with
    every event-actions record) is the world before it. *)
Theorem get_auth_response_no_mutation w auth_config :
  (get_auth_response auth_config w).2 = w /\
  ToolContext.self (get_auth_response auth_config w).2 = ToolContext.self w /\
  ToolContext.state (get_auth_response auth_config w).2 = ToolContext.state w /\
  ToolContext.event_actions_record (get_auth_response auth_config w).2
  = ToolContext.event_actions_record w.
Proof. rewrite get_auth_response_world. done. Qed.

(** *** request_credential *)

(** C2. [request_credential] raises the [ValueError] of this class exactly
    when [function_call_id] is absent or empty, for every [auth_config];
    and when it returns, [function_call_id] is a non-empty string. *)
Theorem request_credential_requires_function_call_id w auth_config :
  (ToolContext.function_call_id_unset w ->
   (request_credential auth_config w).1
   = Raises (ValueError "function_call_id is not set.")) /\
  ((exists msg, (request_credential auth_config w).1 = Raises (ValueError msg))
   -> ToolContext.function_call_id_unset w) /\
  (forall u, (request_credential auth_config w).1 = Returns u ->
     exists k, ToolContext.function_call_id (ToolContext.self w) = Some k /\
               k <> "").
Proof.
  destruct (function_call_id_cases w) as [Hun | (k & Hk & Hne)].
  - rewrite (request_credential_unset_eq w auth_config Hun). simpl.
    split; [done |]. split; [done |]. intros u [=].
  - rewrite (request_credential_set_eq w auth_config k Hk Hne).
    split; [| split].
    + intros [Hn | He]; rewrite Hk in *; congruence.
    + intros [msg Hmsg].
      destruct (AuthHandler.generate_auth_request _); simpl in Hmsg; congruence.
    + intros _ _. eauto.
Qed.

(** C9. A call rejected for a missing [function_call_id] has written
    nothing: the world after the failure is the world before the call. *)
Theorem request_credential_failure_atomic w auth_config :
  ToolContext.function_call_id_unset w ->
  (request_credential auth_config w).2 = w /\
  ToolContext.event_actions_record (request_credential auth_config w).2
  = ToolContext.event_actions_record w.
Proof.
  intros Hun. by rewrite (request_credential_unset_eq w auth_config Hun).
Qed.

(** C3. With a non-empty [function_call_id] [k], a live event-actions
    record and a handler that produces the request [v] for [cfg],
    [request_credential cfg] returns and has stored [v] under [k] in the
    record's requested-auth-configs mapping: that key is the only one
    added, every other key holds what it held, the rest of the record, the
    other records of the store and the attributes of the context are as
    before. *)
Theorem request_credential_inserts_entry w auth_config k v ea :
  ToolContext.function_call_id (ToolContext.self w) = Some k ->
  k <> "" ->
  ToolContext.event_actions_record w = Some ea ->
  AuthHandler.generate_auth_request (AuthHandler_init auth_config) = inr v ->
  exists ea' h',
    request_credential auth_config w
    = (Returns tt, ToolContext.mkWorld (ToolContext.self w) h') /\
    h' !! ToolContext._event_actions w = Some ea' /\
    EventActions.requested_auth_configs ea' !! k = Some v /\
    (forall k', k' <> k ->
       EventActions.requested_auth_configs ea' !! k'
       = EventActions.requested_auth_configs ea !! k') /\
    dom (EventActions.requested_auth_configs ea')
    = {[ k ]} ∪ dom (EventActions.requested_auth_configs ea) /\
    EventActions.rest ea' = EventActions.rest ea /\
    (forall a, a <> ToolContext._event_actions w ->
       h' !! a = ToolContext.heap w !! a).
Proof.
  intros Hk Hne Hea Hv.
  exists (EventActions.setitem k v ea).
  eexists. split.
  { rewrite (request_credential_set_eq w auth_config k Hk Hne), Hv.
    reflexivity. }
  unfold ToolContext.event_actions_record in Hea.
  split; [by rewrite lookup_alter_eq, Hea |].
  split; [apply lookup_insert_eq |].
  split; [intros k' Hk'; by apply lookup_insert_ne |].
  split; [apply dom_insert_L |].
  split; [reflexivity |].
  intros a Ha. by apply lookup_alter_ne.
Qed.

(** C10. Two calls in a row on the same context overwrite: with a
    non-empty [function_call_id] [k] and requests [v1], [v2] produced for
    [cfg1], [cfg2], calling [request_credential cfg1] and then
    [request_credential cfg2] leaves the world that the second call alone
    would have left; the mapping holds [v2] under [k], has the keys it had
    plus [k], and nothing of [v1] remains. *)
Theorem request_credential_last_write_wins w cfg1 cfg2 k v1 v2 ea :
  ToolContext.function_call_id (ToolContext.self w) = Some k ->
  k <> "" ->
  ToolContext.event_actions_record w = Some ea ->
  AuthHandler.generate_auth_request (AuthHandler_init cfg1) = inr v1 ->
  AuthHandler.generate_auth_request (AuthHandler_init cfg2) = inr v2 ->
  bind (request_credential cfg1) (fun _ => request_credential cfg2) w
  = request_credential cfg2 w /\
  exists ea2,
    ToolContext.event_actions_record
      (bind (request_credential cfg1) (fun _ => request_credential cfg2) w).2
    = Some ea2 /\
    EventActions.requested_auth_configs ea2
    = <[k := v2]> (EventActions.requested_auth_configs ea) /\
    EventActions.requested_auth_configs ea2 !! k = Some v2 /\
    dom (EventActions.requested_auth_configs ea2)
    = {[ k ]} ∪ dom (EventActions.requested_auth_configs ea).
Proof.
  intros Hk Hne Hea Hv1 Hv2.
  unfold ToolContext.event_actions_record in *.
  assert (Hrun :
    bind (request_credential cfg1) (fun _ => request_credential cfg2) w
    = (Returns tt,
       ToolContext.mkWorld (ToolContext.self w)
         (alter (EventActions.setitem k v2) (ToolContext._event_actions w)
            (ToolContext.heap w)))).
  { erewrite bind_ret_world
      by (rewrite (request_credential_set_eq w cfg1 k Hk Hne), Hv1;
          reflexivity).
    rewrite (request_credential_set_eq _ cfg2 k) by done.
    rewrite Hv2. simpl. f_equal. f_equal.
    unfold ToolContext._event_actions. simpl.
    rewrite alter_alter_eq. apply alter_ext.
    intros ea0 _. unfold EventActions.setitem, compose. simpl.
    by rewrite insert_insert_eq. }
  split.
  { rewrite Hrun, (request_credential_set_eq w cfg2 k Hk Hne), Hv2.
    reflexivity. }
  exists (EventActions.setitem k v2 ea). rewrite Hrun. simpl.
  split; [change (alter (EventActions.setitem k v2)
                     (ToolContext._event_actions w) (ToolContext.heap w)
                   !! ToolContext._event_actions w
                   = Some (EventActions.setitem k v2 ea));
          by rewrite lookup_alter_eq, Hea |].
  split; [reflexivity |].
  split; [apply lookup_insert_eq | apply dom_insert_L].
Qed.

(** *** list_artifacts and search_memory *)

(** C5. [list_artifacts] raises the [ValueError] of this class if and only
    if the invocation context has no artifact service.  With a service it
    writes nothing and its outcome is the outcome of the service's
    [list_artifact_keys] on the context's app name, user id and session
    id: the very sequence of names when the service returns one. *)
Theorem list_artifacts_spec (w : World) :
  let ic := ToolContext._invocation_context w in
  ((exists msg, (ToolContext.list_artifacts w).1 = Raises (ValueError msg))
   <-> InvocationContext.artifact_service ic = None) /\
  (forall svc, InvocationContext.artifact_service ic = Some svc ->
     ToolContext.list_artifacts w
     = (outcome_of (ArtifactService.list_artifact_keys svc
                      (InvocationContext.app_name ic)
                      (InvocationContext.user_id ic)
                      (Session.id (InvocationContext.session ic))), w)) /\
  (forall svc names, InvocationContext.artifact_service ic = Some svc ->
     ArtifactService.list_artifact_keys svc
       (InvocationContext.app_name ic) (InvocationContext.user_id ic)
       (Session.id (InvocationContext.session ic)) = inr names ->
     ToolContext.list_artifacts w = (Returns names, w)).
Proof.
  intros ic. unfold ToolContext.list_artifacts, bind, gets, call, raise.
  fold ic. destruct (InvocationContext.artifact_service ic) as [svc |]; simpl.
  - split; [| split].
    + split; [| done]. intros [msg Hmsg].
      destruct (ArtifactService.list_artifact_keys _ _ _ _); simpl in Hmsg;
        congruence.
    + by intros ? [= <-].
    + intros ? names [= <-] Hn. by rewrite Hn.
  - split; [| done]. split; [done | eauto].
Qed.

(** C6. [search_memory q] raises the [ValueError] of this class if and only
    if the invocation context has no memory service.  With a service it
    writes nothing and its outcome is the outcome of the service's
    [search_memory] on the context's app name, user id and [q]: the very
    response when the service returns one. *)
Theorem search_memory_spec (w : World) (query : string) :
  let ic := ToolContext._invocation_context w in
  ((exists msg, (ToolContext.search_memory query w).1 = Raises (ValueError msg))
   <-> InvocationContext.memory_service ic = None) /\
  (forall svc, InvocationContext.memory_service ic = Some svc ->
     ToolContext.search_memory query w
     = (outcome_of (MemoryService.search_memory svc
                      (InvocationContext.app_name ic)
                      (InvocationContext.user_id ic) query), w)) /\
  (forall svc (resp : R), InvocationContext.memory_service ic = Some svc ->
     MemoryService.search_memory svc
       (InvocationContext.app_name ic) (InvocationContext.user_id ic) query
     = inr resp ->
     ToolContext.search_memory query w = (Returns resp, w)).
Proof.
  intros ic. unfold ToolContext.search_memory, bind, gets, call, raise.
  fold ic. destruct (InvocationContext.memory_service ic) as [svc |]; simpl.
  - split; [| split].
    + split; [| done]. intros [msg Hmsg].
      destruct (MemoryService.search_memory _ _ _ _); simpl in Hmsg;
        congruence.
    + by intros ? [= <-].
    + intros ? resp [= <-] Hr. by rewrite Hr.
  - split; [| done]. split; [done | eauto].
Qed.

(** *** actions *)

(** C8. [actions] returns the identity of the event-actions record held by
    the base context and changes nothing.  For a context constructed with a
    given record, that identity is the one that was given, and neither the
    construction nor the read puts a new record in the store: the caller
    and the context refer to one and the same object. *)
Theorem actions_returns_shared_record :
  (forall w : World,
     ToolContext.actions w
     = (Returns (CallbackContext._event_actions
                   (ToolContext.base (ToolContext.self w))), w)) /\
  (forall default_actions state_of
          (ic : InvocationContext.t E R AuthCredential)
          function_call_id (a : addr)
          (h : gmap addr (EventActions.t AuthRequest Rest)),
     let w : World :=
       ToolContext.init default_actions state_of ic function_call_id
         (Some a) h in
     ToolContext.actions w = (Returns a, w) /\
     ToolContext.heap w = h /\
     ToolContext.event_actions_record w = h !! a).
Proof. split; [| intros; repeat split]; reflexivity. Qed.

(** *** Further properties of request_credential *)


Lemma setitem_commute k1 k2 (v1 v2 : AuthRequest) ea :
  k1 <> k2 ->
  EventActions.setitem k2 v2 (EventActions.setitem k1 v1 ea)
  = EventActions.setitem k1 v1 (EventActions.setitem k2 v2 ea).
Proof.
  intros Hne. unfold EventActions.setitem. simpl.
  by rewrite insert_insert_ne.
Qed.

(** The three ways a call can end. *)
Lemma request_credential_cases w auth_config :
  (ToolContext.function_call_id_unset w /\
   request_credential auth_config w
   = (Raises (ValueError "function_call_id is not set."), w)) \/
  (exists k e,
     ToolContext.function_call_id (ToolContext.self w) = Some k /\ k <> "" /\
     AuthHandler.generate_auth_request (AuthHandler_init auth_config) = inl e /\
     request_credential auth_config w = (Raises (Propagated e), w)) \/
  (exists k v,
     ToolContext.function_call_id (ToolContext.self w) = Some k /\ k <> "" /\
     AuthHandler.generate_auth_request (AuthHandler_init auth_config) = inr v /\
     request_credential auth_config w
     = (Returns tt,
        ToolContext.mkWorld (ToolContext.self w)
          (alter (EventActions.setitem k v) (ToolContext._event_actions w)
             (ToolContext.heap w)))).
Proof.
  destruct (function_call_id_cases w) as [Hun | (k & Hk & Hne)].
  - left. split; [done |]. by apply request_credential_unset_eq.
  - right. rewrite (request_credential_set_eq w auth_config k Hk Hne).
    destruct (AuthHandler.generate_auth_request _) as [e | v] eqn:Hgen.
    + left. by exists k, e.
    + right. by exists k, v.
Qed.

Lemma request_credential_handler_failure_eq w auth_config k (e : E) :
  ToolContext.function_call_id (ToolContext.self w) = Some k ->
  k <> "" ->
  AuthHandler.generate_auth_request (AuthHandler_init auth_config) = inl e ->
  request_credential auth_config w = (Raises (Propagated e), w).
Proof.
  intros Hk Hne He.
  by rewrite (request_credential_set_eq w auth_config k Hk Hne), He.
Qed.

(** X1. When the call id is set but the handler fails to produce a
    request, [request_credential] raises the handler's error as it is and
    has written nothing: the right-hand side of the assignment is evaluated
    before the mapping is touched. *)
Theorem request_credential_handler_failure w auth_config k (e : E) :
  ToolContext.function_call_id (ToolContext.self w) = Some k ->
  k <> "" ->
  AuthHandler.generate_auth_request (AuthHandler_init auth_config) = inl e ->
  request_credential auth_config w = (Raises (Propagated e), w).
Proof. apply request_credential_handler_failure_eq. Qed.

(** X2. However a call to [request_credential] ends, it keeps the
    attributes of the context, the set of records in the store and every
    record but the context's own; in that record it keeps the rest of the
    record and every key of the mapping other than [function_call_id]. *)
Theorem request_credential_frame w auth_config :
  let w' := (request_credential auth_config w).2 in
  ToolContext.self w' = ToolContext.self w /\
  dom (ToolContext.heap w') = dom (ToolContext.heap w) /\
  (forall a, a <> ToolContext._event_actions w ->
     ToolContext.heap w' !! a = ToolContext.heap w !! a) /\
  (forall ea ea',
     ToolContext.event_actions_record w = Some ea ->
     ToolContext.event_actions_record w' = Some ea' ->
     EventActions.rest ea' = EventActions.rest ea /\
     forall k', ToolContext.function_call_id (ToolContext.self w) <> Some k' ->
       EventActions.requested_auth_configs ea' !! k'
       = EventActions.requested_auth_configs ea !! k').
Proof.
  intros w'. subst w'.
  destruct (request_credential_cases w auth_config)
    as [[_ ->] | [(k & e & _ & _ & _ & ->) | (k & v & Hk & _ & _ & ->)]];
    simpl.
  1, 2: split; [done |]; split; [done |]; split; [done |];
    intros ea ea' Hea Hea'; rewrite Hea in Hea'; by injection Hea' as <-.
  split; [done |]. split; [apply dom_alter_L |].
  split; [intros a Ha; by apply lookup_alter_ne |].
  intros ea ea' Hea. unfold ToolContext.event_actions_record. simpl.
  change (ToolContext._event_actions
            (ToolContext.mkWorld (ToolContext.self w)
               (alter (EventActions.setitem k v)
                  (ToolContext._event_actions w) (ToolContext.heap w))))
    with (ToolContext._event_actions w).
  unfold ToolContext.event_actions_record in Hea.
  rewrite lookup_alter_eq, Hea. simpl. intros [= <-].
  split; [done |]. intros k' Hk'. simpl.
  apply lookup_insert_ne. congruence.
Qed.


Lemma store_after_request_credential
    (c : ToolContext.t E R AuthCredential State)
    (h : gmap addr (EventActions.t AuthRequest Rest)) auth_config k v :
  ToolContext.function_call_id c = Some k ->
  k <> "" ->
  AuthHandler.generate_auth_request (AuthHandler_init auth_config) = inr v ->
  ToolContext.store_after (request_credential auth_config) c h
  = alter (EventActions.setitem k v)
      (CallbackContext._event_actions (ToolContext.base c)) h.
Proof.
  intros Hk Hne Hv. unfold ToolContext.store_after.
  rewrite (request_credential_set_eq _ auth_config k) by done.
  by rewrite Hv.
Qed.

(** X4. Two contexts that hold the same event-actions record and have
    different call ids do not disturb each other: whichever of the two
    calls [request_credential] first, the store ends the same, and the
    shared record holds both requests, each under its own id. *)
Theorem request_credential_shared_record_distinct_ids
    (c1 c2 : ToolContext.t E R AuthCredential State)
    (h : gmap addr (EventActions.t AuthRequest Rest))
    cfg1 cfg2 k1 k2 v1 v2 ea :
  ToolContext.function_call_id c1 = Some k1 ->
  ToolContext.function_call_id c2 = Some k2 ->
  k1 <> "" -> k2 <> "" -> k1 <> k2 ->
  CallbackContext._event_actions (ToolContext.base c2)
  = CallbackContext._event_actions (ToolContext.base c1) ->
  h !! CallbackContext._event_actions (ToolContext.base c1) = Some ea ->
  AuthHandler.generate_auth_request (AuthHandler_init cfg1) = inr v1 ->
  AuthHandler.generate_auth_request (AuthHandler_init cfg2) = inr v2 ->
  let h12 :=
    ToolContext.store_after (request_credential cfg2) c2
      (ToolContext.store_after (request_credential cfg1) c1 h) in
  let h21 :=
    ToolContext.store_after (request_credential cfg1) c1
      (ToolContext.store_after (request_credential cfg2) c2 h) in
  h12 = h21 /\
  exists ea',
    h12 !! CallbackContext._event_actions (ToolContext.base c1) = Some ea' /\
    EventActions.requested_auth_configs ea' !! k1 = Some v1 /\
    EventActions.requested_auth_configs ea' !! k2 = Some v2 /\
    dom (EventActions.requested_auth_configs ea')
    = {[ k1; k2 ]} ∪ dom (EventActions.requested_auth_configs ea).
Proof.
  intros Hk1 Hk2 Hne1 Hne2 Hne Hsame Hea Hv1 Hv2 h12 h21. subst h12 h21.
  rewrite !(store_after_request_credential c1 _ cfg1 k1 v1) by done.
  rewrite !(store_after_request_credential c2 _ cfg2 k2 v2) by done.
  rewrite Hsame, !alter_alter_eq. split.
  - apply alter_ext. intros ea0 _. by apply setitem_commute.
  - exists (EventActions.setitem k2 v2 (EventActions.setitem k1 v1 ea)).
    split; [by rewrite lookup_alter_eq, Hea |]. simpl.
    split; [by rewrite lookup_insert_ne, lookup_insert_eq |].
    split; [apply lookup_insert_eq |].
    rewrite !dom_insert_L.
    by rewrite (assoc_L (∪)), (comm_L (∪) {[ k2 ]} {[ k1 ]}).
Qed.

(** X9. A later call that fails in the handler does not take back an
    earlier one: after [request_credential cfg1] has returned, a failing
    [request_credential cfg2] raises the handler's error and the mapping
    still holds the request made for [cfg1] under [function_call_id]. *)
Theorem request_credential_failure_keeps_earlier w cfg1 cfg2 k v1 (e : E) ea :
  ToolContext.function_call_id (ToolContext.self w) = Some k ->
  k <> "" ->
  ToolContext.event_actions_record w = Some ea ->
  AuthHandler.generate_auth_request (AuthHandler_init cfg1) = inr v1 ->
  AuthHandler.generate_auth_request (AuthHandler_init cfg2) = inl e ->
  bind (request_credential cfg1) (fun _ => request_credential cfg2) w
  = (Raises (Propagated e), (request_credential cfg1 w).2) /\
  exists ea',
    ToolContext.event_actions_record
      (bind (request_credential cfg1) (fun _ => request_credential cfg2) w).2
    = Some ea' /\
    EventActions.requested_auth_configs ea' !! k = Some v1.
Proof.
  intros Hk Hne Hea Hv1 He.
  assert (Hrun : bind (request_credential cfg1)
                   (fun _ => request_credential cfg2) w
                 = (Raises (Propagated e), (request_credential cfg1 w).2)).
  { erewrite bind_ret_world
      by (rewrite (request_credential_set_eq w cfg1 k Hk Hne), Hv1;
          reflexivity).
    rewrite (request_credential_set_eq w cfg1 k Hk Hne), Hv1. simpl.
    by apply (request_credential_handler_failure_eq _ cfg2 k). }
  split; [exact Hrun |]. rewrite Hrun.
  rewrite (request_credential_set_eq w cfg1 k Hk Hne), Hv1.
  exists (EventActions.setitem k v1 ea).
  unfold ToolContext.event_actions_record in *. simpl.
  change (ToolContext._event_actions
            (ToolContext.mkWorld (ToolContext.self w)
               (alter (EventActions.setitem k v1)
                  (ToolContext._event_actions w) (ToolContext.heap w))))
    with (ToolContext._event_actions w).
  rewrite lookup_alter_eq, Hea. split; [done |]. apply lookup_insert_eq.
Qed.

(** X10. What [request_credential] writes is read back through [actions]:
    after a call that returns, [actions] yields the identity the context
    had before the call, and the record found under it holds the request
    under [function_call_id]. *)
Theorem actions_reads_request_credential w auth_config k v ea :
  ToolContext.function_call_id (ToolContext.self w) = Some k ->
  k <> "" ->
  ToolContext.event_actions_record w = Some ea ->
  AuthHandler.generate_auth_request (AuthHandler_init auth_config) = inr v ->
  exists w' ea',
    bind (request_credential auth_config) (fun _ => ToolContext.actions) w
    = (Returns (ToolContext._event_actions w), w') /\
    ToolContext.heap w' !! ToolContext._event_actions w = Some ea' /\
    EventActions.requested_auth_configs ea' !! k = Some v.
Proof.
  intros Hk Hne Hea Hv.
  eexists. exists (EventActions.setitem k v ea). split.
  { rewrite (bind_ret_world _ _ w _ tt)
      by (rewrite (request_credential_set_eq w auth_config k Hk Hne), Hv;
          reflexivity).
    reflexivity. }
  unfold ToolContext.event_actions_record in Hea. simpl.
  split; [by rewrite lookup_alter_eq, Hea | apply lookup_insert_eq].
Qed.

(** *** Further properties of the three readers *)

Lemma bearer_entry_Some_inv (ic : InvocationContext.t E R AuthCredential) tok :
  ToolContext.bearer_entry ic = Some tok ->
  exists m, InvocationContext.requested_auth_configs ic = Some (Some m) /\
            m !! "bearer" = Some tok.
Proof.
  unfold ToolContext.bearer_entry.
  destruct (InvocationContext.requested_auth_configs ic) as [[m |] |];
    [| done | done].
  destruct (decide (m = ∅)); [done |]. eauto.
Qed.

Lemma readers_outcome_self w1 w2 auth_config query :
  ToolContext.self w1 = ToolContext.self w2 ->
  (get_auth_response auth_config w1).1 = (get_auth_response auth_config w2).1 /\
  (ToolContext.list_artifacts w1).1 = (ToolContext.list_artifacts w2).1 /\
  (ToolContext.search_memory query w1).1
  = (ToolContext.search_memory query w2).1.
Proof.
  destruct w1 as [c1 h1], w2 as [c2 h2]. simpl. intros ->.
  unfold ToolContext.get_auth_response, ToolContext.list_artifacts,
    ToolContext.search_memory, bind, gets, call, raise, ret,
    ToolContext._invocation_context, ToolContext.state.
  simpl.
  split; [| split].
  - destruct (ToolContext.bearer_entry _); reflexivity.
  - destruct (InvocationContext.artifact_service _); reflexivity.
  - destruct (InvocationContext.memory_service _); reflexivity.
Qed.

(** X5. A call to [request_credential], however it ends, changes nothing
    of what the readers answer afterwards: [get_auth_response],
    [list_artifacts] and [search_memory] give the outcome they gave before.
    In particular a requested credential is not thereby an available one:
    [get_auth_response] looks at the mapping of the invocation context, not
    at the one [request_credential] writes. *)
Theorem request_credential_keeps_readers w auth_config cfg' query :
  let w' := (request_credential auth_config w).2 in
  (get_auth_response cfg' w').1 = (get_auth_response cfg' w).1 /\
  (ToolContext.list_artifacts w').1 = (ToolContext.list_artifacts w).1 /\
  (ToolContext.search_memory query w').1
  = (ToolContext.search_memory query w).1.
Proof.
  intros w'. apply readers_outcome_self. subst w'.
  destruct (request_credential_cases w auth_config)
    as [[_ ->] | [(k & e & _ & _ & _ & ->) | (k & v & _ & _ & _ & ->)]];
    reflexivity.
Qed.

(** X6. The bearer entry is the only way around the handler, and the
    emptiness test adds nothing to the key test: [get_auth_response]
    returns [tok] with every handler class if and only if the invocation
    context's mapping holds [tok] under "bearer".  ([e] is any error a
    handler can fail with.) *)
Theorem get_auth_response_handler_free (e : E) w auth_config
    (tok : AuthCredential) :
  (forall handler :
       AuthConfig -> AuthHandler.t E State AuthRequest AuthCredential,
     ToolContext.get_auth_response handler auth_config w = (Returns tok, w))
  <->
  (exists m,
     InvocationContext.requested_auth_configs (ToolContext._invocation_context w)
     = Some (Some m) /\
     m !! "bearer" = Some tok).
Proof.
  split.
  - intros Hall.
    specialize (Hall (fun _ => AuthHandler.Build (inl e) (fun _ => inl e))).
    unfold ToolContext.get_auth_response, bind, gets, call, ret in Hall.
    simpl in Hall.
    destruct (ToolContext.bearer_entry (ToolContext._invocation_context w))
      as [tok' |] eqn:Hb; [| discriminate Hall].
    apply bearer_entry_Some_inv. rewrite Hb. congruence.
  - intros (m & Hm & Hb) handler.
    unfold ToolContext.get_auth_response, bind, gets.
    by rewrite (bearer_entry_Some _ m tok Hm Hb).
Qed.

(** X7. [list_artifacts] never writes, not even when it raises, and reads
    four things only: the artifact service, the app name, the user id and
    the session id.  Contexts that agree on these get the same outcome,
    whatever their call id, event actions, state or memory service. *)
Theorem list_artifacts_reads_only :
  (forall w : World, (ToolContext.list_artifacts w).2 = w) /\
  (forall w1 w2 : World,
     let ic1 := ToolContext._invocation_context w1 in
     let ic2 := ToolContext._invocation_context w2 in
     InvocationContext.artifact_service ic1
     = InvocationContext.artifact_service ic2 ->
     InvocationContext.app_name ic1 = InvocationContext.app_name ic2 ->
     InvocationContext.user_id ic1 = InvocationContext.user_id ic2 ->
     Session.id (InvocationContext.session ic1)
     = Session.id (InvocationContext.session ic2) ->
     (ToolContext.list_artifacts w1).1 = (ToolContext.list_artifacts w2).1).
Proof.
  split.
  - intros w. unfold ToolContext.list_artifacts, bind, gets, call, raise.
    simpl. by destruct (InvocationContext.artifact_service _).
  - intros w1 w2 ic1 ic2 Hsvc Happ Huser Hsid.
    unfold ToolContext.list_artifacts, bind, gets, call, raise. simpl.
    fold ic1 ic2. rewrite Hsvc, Happ, Huser, Hsid.
    by destruct (InvocationContext.artifact_service ic2).
Qed.

(** X8. [search_memory] never writes, not even when it raises, and reads
    the memory service, the app name, the user id and the query only: the
    search is not scoped by session, so contexts of different sessions of
    one user get the same outcome for the same query. *)
Theorem search_memory_reads_only :
  (forall (w : World) query, (ToolContext.search_memory query w).2 = w) /\
  (forall (w1 w2 : World) query,
     let ic1 := ToolContext._invocation_context w1 in
     let ic2 := ToolContext._invocation_context w2 in
     InvocationContext.memory_service ic1
     = InvocationContext.memory_service ic2 ->
     InvocationContext.app_name ic1 = InvocationContext.app_name ic2 ->
     InvocationContext.user_id ic1 = InvocationContext.user_id ic2 ->
     (ToolContext.search_memory query w1).1
     = (ToolContext.search_memory query w2).1).
Proof.
  split.
  - intros w query. unfold ToolContext.search_memory, bind, gets, call, raise.
    simpl. by destruct (InvocationContext.memory_service _).
  - intros w1 w2 query ic1 ic2 Hsvc Happ Huser.
    unfold ToolContext.search_memory, bind, gets, call, raise. simpl.
    fold ic1 ic2. rewrite Hsvc, Happ, Huser.
    by destruct (InvocationContext.memory_service ic2).
Qed.

End Properties.

(** ** The properties on the concrete deployment *)

Lemma get_auth_response_bearer_witness :
  ToolContext.get_auth_response Sample.handler "oauth" Sample.w_bearer
  = (Returns "tok", Sample.w_bearer).
Proof.
  apply (get_auth_response_bearer Sample.handler Sample.w_bearer "oauth"
           {[ "bearer" := "tok" ]} "tok").
  - reflexivity.
  - intros Hempty. apply (f_equal (fun m => m !! "bearer")) in Hempty.
    vm_compute in Hempty. discriminate Hempty.
  - reflexivity.
Defined.

Lemma get_auth_response_delegates_witness :
  ToolContext.get_auth_response Sample.handler "oauth" Sample.w_other
  = (Returns "cred-u1", Sample.w_other).
Proof.
  apply (get_auth_response_delegates Sample.handler Sample.w_other "oauth").
  right; right. exists {[ "basic" := "pw" ]}.
  split; [reflexivity | right; reflexivity].
Defined.

Lemma request_credential_requires_function_call_id_witness :
  (ToolContext.request_credential Sample.handler "oauth" Sample.w_unset).1
  = Raises (ValueError "function_call_id is not set.").
Proof.
  apply (proj1 (request_credential_requires_function_call_id
                  Sample.handler Sample.w_unset "oauth")).
  left. reflexivity.
Defined.

Lemma request_credential_failure_atomic_witness :
  (ToolContext.request_credential Sample.handler "oauth" Sample.w_empty).2
  = Sample.w_empty /\
  ToolContext.event_actions_record
    (ToolContext.request_credential Sample.handler "oauth" Sample.w_empty).2
  = ToolContext.event_actions_record Sample.w_empty.
Proof.
  apply (request_credential_failure_atomic Sample.handler Sample.w_empty
           "oauth").
  right. reflexivity.
Defined.

Lemma request_credential_inserts_entry_witness :
  exists ea' h',
    ToolContext.request_credential Sample.handler "oauth" Sample.w_bearer
    = (Returns tt, ToolContext.mkWorld (ToolContext.self Sample.w_bearer) h') /\
    h' !! ToolContext._event_actions Sample.w_bearer = Some ea' /\
    EventActions.requested_auth_configs ea' !! "fc1"
    = Some "request for oauth" /\
    (forall k', k' <> "fc1" ->
       EventActions.requested_auth_configs ea' !! k'
       = EventActions.requested_auth_configs Sample.ea0 !! k') /\
    dom (EventActions.requested_auth_configs ea')
    = {[ "fc1" ]} ∪ dom (EventActions.requested_auth_configs Sample.ea0) /\
    EventActions.rest ea' = EventActions.rest Sample.ea0 /\
    (forall a, a <> ToolContext._event_actions Sample.w_bearer ->
       h' !! a = ToolContext.heap Sample.w_bearer !! a).
Proof.
  apply (request_credential_inserts_entry Sample.handler Sample.w_bearer
           "oauth" "fc1" "request for oauth" Sample.ea0).
  - reflexivity.
  - discriminate.
  - reflexivity.
  - reflexivity.
Defined.

Lemma request_credential_last_write_wins_witness :
  bind (ToolContext.request_credential Sample.handler "basic")
    (fun _ => ToolContext.request_credential Sample.handler "oauth")
    Sample.w_bearer
  = ToolContext.request_credential Sample.handler "oauth" Sample.w_bearer /\
  exists ea2,
    ToolContext.event_actions_record
      (bind (ToolContext.request_credential Sample.handler "basic")
         (fun _ => ToolContext.request_credential Sample.handler "oauth")
         Sample.w_bearer).2
    = Some ea2 /\
    EventActions.requested_auth_configs ea2
    = <["fc1" := "request for oauth"]>
        (EventActions.requested_auth_configs Sample.ea0) /\
    EventActions.requested_auth_configs ea2 !! "fc1"
    = Some "request for oauth" /\
    dom (EventActions.requested_auth_configs ea2)
    = {[ "fc1" ]} ∪ dom (EventActions.requested_auth_configs Sample.ea0).
Proof.
  apply (request_credential_last_write_wins Sample.handler Sample.w_bearer
           "basic" "oauth" "fc1" "request for basic" "request for oauth"
           Sample.ea0).
  - reflexivity.
  - discriminate.
  - reflexivity.
  - reflexivity.
  - reflexivity.
Defined.

Lemma list_artifacts_spec_witness :
  ToolContext.list_artifacts Sample.w_bearer
  = (Returns ["app/u1/s1/a.txt"], Sample.w_bearer).
Proof.
  apply (proj2 (proj2 (list_artifacts_spec Sample.w_bearer)) Sample.artifacts).
  - reflexivity.
  - reflexivity.
Defined.

Lemma search_memory_spec_witness :
  ToolContext.search_memory "q" Sample.w_bearer
  = (Returns ["app/u1?q"], Sample.w_bearer).
Proof.
  apply (proj2 (proj2 (search_memory_spec Sample.w_bearer "q")) Sample.memory).
  - reflexivity.
  - reflexivity.
Defined.

Lemma request_credential_handler_failure_witness :
  ToolContext.request_credential Sample.handler "" Sample.w_bearer
  = (Raises (Propagated "no auth scheme"), Sample.w_bearer).
Proof.
  apply (request_credential_handler_failure Sample.handler Sample.w_bearer
           "" "fc1" "no auth scheme").
  - reflexivity.
  - discriminate.
  - reflexivity.
Defined.

Lemma request_credential_frame_witness :
  EventActions.rest
    (EventActions.setitem "fc1" "request for oauth" Sample.ea0)
  = EventActions.rest Sample.ea0 /\
  forall k',
    ToolContext.function_call_id (ToolContext.self Sample.w_bearer) <> Some k' ->
    EventActions.requested_auth_configs
      (EventActions.setitem "fc1" "request for oauth" Sample.ea0) !! k'
    = EventActions.requested_auth_configs Sample.ea0 !! k'.
Proof.
  apply (proj2 (proj2 (proj2
           (request_credential_frame Sample.handler Sample.w_bearer "oauth")))
           Sample.ea0
           (EventActions.setitem "fc1" "request for oauth" Sample.ea0)).
  - reflexivity.
  - vm_compute. reflexivity.
Defined.

Lemma request_credential_shared_record_distinct_ids_witness :
  let h12 :=
    ToolContext.store_after
      (ToolContext.request_credential Sample.handler "basic")
      (ToolContext.self Sample.w_sibling)
      (ToolContext.store_after
         (ToolContext.request_credential Sample.handler "oauth")
         (ToolContext.self Sample.w_bearer) Sample.h0) in
  let h21 :=
    ToolContext.store_after
      (ToolContext.request_credential Sample.handler "oauth")
      (ToolContext.self Sample.w_bearer)
      (ToolContext.store_after
         (ToolContext.request_credential Sample.handler "basic")
         (ToolContext.self Sample.w_sibling) Sample.h0) in
  h12 = h21 /\
  exists ea',
    h12 !! CallbackContext._event_actions
             (ToolContext.base (ToolContext.self Sample.w_bearer))
    = Some ea' /\
    EventActions.requested_auth_configs ea' !! "fc1"
    = Some "request for oauth" /\
    EventActions.requested_auth_configs ea' !! "fc2"
    = Some "request for basic" /\
    dom (EventActions.requested_auth_configs ea')
    = {[ "fc1"; "fc2" ]} ∪ dom (EventActions.requested_auth_configs Sample.ea0).
Proof.
  apply (request_credential_shared_record_distinct_ids Sample.handler
           (ToolContext.self Sample.w_bearer)
           (ToolContext.self Sample.w_sibling)
           Sample.h0 "oauth" "basic" "fc1" "fc2"
           "request for oauth" "request for basic" Sample.ea0).
  - reflexivity.
  - reflexivity.
  - discriminate.
  - discriminate.
  - discriminate.
  - reflexivity.
  - reflexivity.
  - reflexivity.
  - reflexivity.
Defined.

Lemma request_credential_failure_keeps_earlier_witness :
  bind (ToolContext.request_credential Sample.handler "oauth")
    (fun _ => ToolContext.request_credential Sample.handler "")
    Sample.w_bearer
  = (Raises (Propagated "no auth scheme"),
     (ToolContext.request_credential Sample.handler "oauth" Sample.w_bearer).2)
  /\
  exists ea',
    ToolContext.event_actions_record
      (bind (ToolContext.request_credential Sample.handler "oauth")
         (fun _ => ToolContext.request_credential Sample.handler "")
         Sample.w_bearer).2
    = Some ea' /\
    EventActions.requested_auth_configs ea' !! "fc1"
    = Some "request for oauth".
Proof.
  apply (request_credential_failure_keeps_earlier Sample.handler
           Sample.w_bearer "oauth" "" "fc1" "request for oauth"
           "no auth scheme" Sample.ea0).
  - reflexivity.
  - discriminate.
  - reflexivity.
  - reflexivity.
  - reflexivity.
Defined.

Lemma actions_reads_request_credential_witness :
  exists w' ea',
    bind (ToolContext.request_credential Sample.handler "oauth")
      (fun _ => ToolContext.actions) Sample.w_bearer
    = (Returns (ToolContext._event_actions Sample.w_bearer), w') /\
    ToolContext.heap w' !! ToolContext._event_actions Sample.w_bearer
    = Some ea' /\
    EventActions.requested_auth_configs ea' !! "fc1"
    = Some "request for oauth".
Proof.
  apply (actions_reads_request_credential Sample.handler Sample.w_bearer
           "oauth" "fc1" "request for oauth" Sample.ea0).
  - reflexivity.
  - discriminate.
  - reflexivity.
  - reflexivity.
Defined.

Lemma get_auth_response_handler_free_witness :
  ToolContext.get_auth_response Sample.failing_handler "oauth" Sample.w_bearer
  = (Returns "tok", Sample.w_bearer).
Proof.
  apply (proj2 (get_auth_response_handler_free
                  "no credential" Sample.w_bearer "oauth" "tok")).
  exists {[ "bearer" := "tok" ]}. split; reflexivity.
Defined.

Lemma list_artifacts_reads_only_witness :
  (ToolContext.list_artifacts Sample.w_bearer).1
  = (ToolContext.list_artifacts Sample.w_sibling).1.
Proof.
  apply (proj2 list_artifacts_reads_only Sample.w_bearer Sample.w_sibling);
    reflexivity.
Defined.

Lemma search_memory_reads_only_witness :
  (ToolContext.search_memory "q" Sample.w_bearer).1
  = (ToolContext.search_memory "q" Sample.w_session2).1.
Proof.
  apply (proj2 search_memory_reads_only Sample.w_bearer Sample.w_session2 "q");
    reflexivity.
Defined.
